(** * A to-do service over one [tasks] table: model and properties

    The development follows the layout of the application:

    - [models]   the ORM class [Task] and the constraints of its table
                 (app/models.py);
    - [schemas]  the request and response schemas (app/schemas.py);
    - the session layer: a state-and-exception monad carrying the committed
                 database, the open transaction, the Python objects the
                 session tracks and the wall clock (app/database.py and the
                 parts of the ORM the gateway calls);
    - [crud]     the persistence gateway (app/crud.py);
    - [tasks]    the endpoints (app/routers/tasks.py);
    - [main]     the application: one request, one fresh session
                 (app/main.py).

    Modelling choices.  Python integers are [Z]; strings are [string], one
    [ascii] standing for one character; a timestamp is the number of
    microseconds since the epoch.  A request body is taken after JSON
    decoding, restricted to the keys the schemas declare (any other key is
    dropped by the schema layer), each key being absent, null or a value of
    the JSON type its field declares.  The store is PostgreSQL (the gateway
    issues [ALTER SEQUENCE]): a table is the list of its rows in the order a
    plain [SELECT] returns them, [nextval] is not undone by a rollback, and
    a negative [OFFSET] or [LIMIT] is an error.  Requests are served one at
    a time. *)

From Stdlib Require Import ZArith List String Bool Lia.
Import ListNotations.
Open Scope Z_scope.

Definition datetime := Z.

(** ** Keyword arguments and attribute assignments

    [models.Task] called with keyword arguments, [setattr(db_task, key, value)] and
    [db_task.created_at = ...] all assign one named attribute; [item] is
    one such (key, value) pair and [dict] a Python dictionary of them, in
    insertion order. *)

Inductive item :=
| title_item (value : option string)
| description_item (value : option string)
| completed_item (value : option bool)
| created_at_item (value : option datetime)
| updated_at_item (value : option datetime).

Definition dict := list item.

(** ** app/models.py *)

Module models.

Record Task := mkTask {
  id : option Z;
  title : option string;
  description : option string;
  completed : option bool;
  created_at : option datetime;
  updated_at : option datetime
}.

(** A freshly constructed object: every attribute reads [None]. *)
Definition blank : Task := mkTask None None None None None None.

Definition set_id (v : option Z) (t : Task) : Task :=
  mkTask v (title t) (description t) (completed t) (created_at t) (updated_at t).

Definition set_completed (v : option bool) (t : Task) : Task :=
  mkTask (id t) (title t) (description t) v (created_at t) (updated_at t).

Definition setitem (t : Task) (it : item) : Task :=
  match it with
  | title_item v =>
      mkTask (id t) v (description t) (completed t) (created_at t) (updated_at t)
  | description_item v =>
      mkTask (id t) (title t) v (completed t) (created_at t) (updated_at t)
  | completed_item v => set_completed v t
  | created_at_item v =>
      mkTask (id t) (title t) (description t) (completed t) v (updated_at t)
  | updated_at_item v =>
      mkTask (id t) (title t) (description t) (completed t) (created_at t) v
  end.

(** The constructor, called with keyword arguments. *)
Definition Task_init (kwargs : dict) : Task := fold_left setitem kwargs blank.

(** [id == task_id], the filter of the gateway's queries. *)
Definition has_id (task_id : Z) (t : Task) : bool :=
  match id t with
  | Some i => i =? task_id
  | None => false
  end.

(** Column declarations.  [id] is the primary key and [title] is
    [nullable=False]: both reject NULL. *)
Definition not_null (t : Task) : bool :=
  match id t, title t with
  | Some _, Some _ => true
  | _, _ => false
  end.

Definition fits (bound : nat) (v : option string) : bool :=
  match v with
  | Some s => Nat.leb (String.length s) bound
  | None => true
  end.

(** [String(100)] and [String(500)]. *)
Definition in_length (t : Task) : bool :=
  fits 100 (title t) && fits 500 (description t).

(** [completed = Column(Boolean, default=False)]: the default is used by
    an INSERT when the attribute has no value. *)
Definition completed_default (t : Task) : Task :=
  match completed t with
  | Some _ => t
  | None => set_completed (Some false) t
  end.

End models.

(** ** The store *)

Record Database := mkDatabase {
  rows : list models.Task;   (* table tasks *)
  tasks_id_seq : Z           (* the value the next nextval returns *)
}.

Definition set_rows (l : list models.Task) (d : Database) : Database :=
  mkDatabase l (tasks_id_seq d).

Definition set_seq (n : Z) (d : Database) : Database :=
  mkDatabase (rows d) n.

(** The database right after the tables are created. *)
Definition empty_database : Database := mkDatabase [] 1.

(** ** The world and the session *)

Record World := mkWorld {
  database : Database;       (* committed state *)
  clock : nat -> datetime;   (* the successive readings of the wall clock *)
  ticks : nat                (* how many readings were taken so far *)
}.

Inductive lifecycle := transient | pending | persistent | deleted | detached.

Record object := mkObject {
  attrs : models.Task;
  state : lifecycle;
  modified : bool
}.

Definition ref := nat.

Record Session := mkSession {
  world : World;
  txn : Database;            (* what the open transaction sees *)
  objects : list object      (* the objects made in this request *)
}.

Inductive exn :=
| HTTPException (status_code : Z) (detail : string)
| RequestValidationError
| ResponseValidationError
| IntegrityError
| DataError
| InvalidRequestError.

Definition M (A : Type) : Type := Session -> (exn + A) * Session.

Definition ret {A} (a : A) : M A := fun s => (inr a, s).

Definition bind {A B} (c : M A) (k : A -> M B) : M B :=
  fun s =>
    match c s with
    | (inr a, s') => k a s'
    | (inl e, s') => (inl e, s')
    end.

Definition raise {A} (e : exn) : M A := fun s => (inl e, s).

Declare Scope monad_scope.
Delimit Scope monad_scope with monad.
Notation "x <- c1 ;; c2" := (bind c1 (fun x => c2))
  (at level 61, c1 at next level, right associativity) : monad_scope.
Notation "c1 ;; c2" := (bind c1 (fun _ => c2))
  (at level 61, right associativity) : monad_scope.
Open Scope monad_scope.

Definition get_txn : M Database := fun s => (inr (txn s), s).

Definition put_txn (d : Database) : M unit :=
  fun s => (inr tt, mkSession (world s) d (objects s)).

Definition put_objects (l : list object) : M unit :=
  fun s => (inr tt, mkSession (world s) (txn s) l).

Definition get_database : M Database := fun s => (inr (database (world s)), s).

Definition put_database (d : Database) : M unit :=
  fun s =>
    let w := world s in
    (inr tt, mkSession (mkWorld d (clock w) (ticks w)) (txn s) (objects s)).

(** [datetime.utcnow()] *)
Definition utcnow : M datetime :=
  fun s =>
    let w := world s in
    (inr (clock w (ticks w)),
     mkSession (mkWorld (database w) (clock w) (S (ticks w))) (txn s) (objects s)).

(** *** Objects *)

Definition allocate (o : object) : M ref :=
  fun s => (inr (List.length (objects s)), mkSession (world s) (txn s) (objects s ++ [o])).

Definition deref (r : ref) : M object :=
  fun s =>
    match nth_error (objects s) r with
    | Some o => (inr o, s)
    | None => (inl InvalidRequestError, s)
    end.

Fixpoint replace_nth {A} (n : nat) (a : A) (l : list A) : list A :=
  match l, n with
  | [], _ => []
  | _ :: l', O => a :: l'
  | x :: l', S n' => x :: replace_nth n' a l'
  end.

Definition assign (r : ref) (o : object) : M unit :=
  fun s => (inr tt, mkSession (world s) (txn s) (replace_nth r o (objects s))).

(** [models.Task] called with the keyword arguments [kwargs] *)
Definition Task (kwargs : dict) : M ref :=
  allocate (mkObject (models.Task_init kwargs) transient false).

(** [setattr(obj, key, value)], also written [obj.key = value] *)
Definition setattr (r : ref) (it : item) : M unit :=
  o <- deref r ;;
  assign r (mkObject (models.setitem (attrs o) it) (state o) true).

(** *** Statements, as the transaction executes them *)

(** [nextval('tasks_id_seq')]: the value is consumed for good, also when
    the transaction is rolled back later. *)
Definition nextval : M Z :=
  d <- get_txn ;;
  let v := tasks_id_seq d in
  put_txn (set_seq (v + 1) d) ;;
  c <- get_database ;;
  put_database (set_seq (v + 1) c) ;;
  ret v.

Definition check_constraints (row : models.Task) : M unit :=
  if negb (models.not_null row) then raise IntegrityError
  else if negb (models.in_length row) then raise DataError
  else ret tt.

(** [INSERT INTO tasks (...) VALUES (...) RETURNING id] *)
Definition INSERT (t : models.Task) : M models.Task :=
  pk <- match models.id t with
        | Some i => ret i
        | None => nextval
        end ;;
  let row := models.completed_default (models.set_id (Some pk) t) in
  d <- get_txn ;;
  if existsb (models.has_id pk) (rows d) then raise IntegrityError
  else
    check_constraints row ;;
    put_txn (set_rows (rows d ++ [row]) d) ;;
    ret row.

(** [UPDATE tasks SET ... WHERE id = pk].  The object was loaded in this
    transaction, so writing its changed attributes makes the row equal to
    the object. *)
Definition UPDATE (t : models.Task) : M unit :=
  match models.id t with
  | None => raise InvalidRequestError
  | Some pk =>
      check_constraints t ;;
      d <- get_txn ;;
      put_txn (set_rows (map (fun row => if models.has_id pk row then t else row)
                             (rows d)) d)
  end.

(** [DELETE FROM tasks WHERE id = pk] *)
Definition DELETE (t : models.Task) : M unit :=
  match models.id t with
  | None => raise InvalidRequestError
  | Some pk =>
      d <- get_txn ;;
      put_txn (set_rows (filter (fun row => negb (models.has_id pk row)) (rows d)) d)
  end.

(** [text("DELETE FROM tasks")] *)
Definition DELETE_FROM_tasks : M unit :=
  d <- get_txn ;; put_txn (set_rows [] d).

(** [text("ALTER SEQUENCE tasks_id_seq RESTART WITH 1")] *)
Definition ALTER_SEQUENCE_tasks_id_seq_RESTART_WITH_1 : M unit :=
  d <- get_txn ;; put_txn (set_seq 1 d).

(** *** The session's methods *)

Fixpoint for_each {A} (l : list A) (body : A -> M unit) : M unit :=
  match l with
  | [] => ret tt
  | a :: l' => body a ;; for_each l' body
  end.

Fixpoint map_M {A B} (f : A -> M B) (l : list A) : M (list B) :=
  match l with
  | [] => ret []
  | a :: l' => b <- f a ;; bs <- map_M f l' ;; ret (b :: bs)
  end.

(** One object's share of a flush. *)
Definition flush_object (r : ref) : M unit :=
  o <- deref r ;;
  match state o with
  | pending =>
      row <- INSERT (attrs o) ;;
      assign r (mkObject row persistent false)
  | persistent =>
      if modified o
      then UPDATE (attrs o) ;; assign r (mkObject (attrs o) persistent false)
      else ret tt
  | deleted =>
      DELETE (attrs o) ;; assign r (mkObject (attrs o) detached false)
  | transient | detached => ret tt
  end.

Definition flush : M unit :=
  fun s => for_each (seq 0 (List.length (objects s))) flush_object s.

(** [db.add(obj)] *)
Definition add (r : ref) : M unit :=
  o <- deref r ;;
  match state o with
  | transient => assign r (mkObject (attrs o) pending (modified o))
  | _ => ret tt
  end.

(** [db.delete(obj)] *)
Definition delete (r : ref) : M unit :=
  o <- deref r ;;
  match state o with
  | persistent => assign r (mkObject (attrs o) deleted (modified o))
  | _ => raise InvalidRequestError
  end.

(** [db.commit()]: flush, then make the transaction's view the committed
    one. *)
Definition commit : M unit :=
  flush ;;
  d <- get_txn ;;
  put_database d.

(** A row read by a query becomes a persistent object. *)
Definition load (row : models.Task) : M ref :=
  allocate (mkObject row persistent false).

(** [db.refresh(obj)]: read the object's row again. *)
Definition refresh (r : ref) : M unit :=
  o <- deref r ;;
  d <- get_txn ;;
  match models.id (attrs o) with
  | None => raise InvalidRequestError
  | Some pk =>
      match filter (models.has_id pk) (rows d) with
      | row :: _ => assign r (mkObject row persistent false)
      | [] => raise InvalidRequestError
      end
  end.

(** [select(models.Task)] with its clauses. *)
Inductive Select :=
| select_Task
| filter_id (q : Select) (task_id : Z)
| offset (q : Select) (n : Z)
| limit (q : Select) (n : Z).

Fixpoint fetch (q : Select) (table : list models.Task) : exn + list models.Task :=
  match q with
  | select_Task => inr table
  | filter_id q' task_id =>
      match fetch q' table with
      | inr l => inr (filter (models.has_id task_id) l)
      | inl e => inl e
      end
  | offset q' n =>
      match fetch q' table with
      | inr l => if n <? 0 then inl DataError else inr (skipn (Z.to_nat n) l)
      | inl e => inl e
      end
  | limit q' n =>
      match fetch q' table with
      | inr l => if n <? 0 then inl DataError else inr (firstn (Z.to_nat n) l)
      | inl e => inl e
      end
  end.

(** [(await db.execute(q)).scalars().all()] *)
Definition execute_all (q : Select) : M (list ref) :=
  d <- get_txn ;;
  match fetch q (rows d) with
  | inr l => map_M load l
  | inl e => raise e
  end.

(** [(await db.execute(q)).scalars().first()] *)
Definition execute_first (q : Select) : M (option ref) :=
  l <- execute_all q ;;
  ret (hd_error l).

(** ** app/schemas.py *)

Module schemas.

(** One key of a decoded JSON body. *)
Inductive field (A : Type) :=
| absent
| null
| value (a : A).
Arguments absent {A}.
Arguments null {A}.
Arguments value {A} a.

Record Body := mkBody {
  body_title : field string;
  body_description : field string;
  body_completed : field bool
}.

(** [Optional[T] = None]: null and absent both read [None]. *)
Definition optional {A} (f : field A) : option A :=
  match f with
  | value a => Some a
  | null | absent => None
  end.

(** The same field with the record of whether it was set: the outer
    [None] is "not set", [Some None] is "set to null". *)
Definition optional_set {A} (f : field A) : option (option A) :=
  match f with
  | absent => None
  | null => Some None
  | value a => Some (Some a)
  end.

(** [class TaskCreate]: [title: str], [description: Optional[str] = None].
    The class declares no other field. *)
Record TaskCreate := mkTaskCreate {
  TaskCreate_title : string;
  TaskCreate_description : option string
}.

Definition TaskCreate_validate (b : Body) : exn + TaskCreate :=
  match body_title b with
  | value s => inr (mkTaskCreate s (optional (body_description b)))
  | null | absent => inl RequestValidationError
  end.

(** [task.model_dump()] *)
Definition TaskCreate_model_dump (task : TaskCreate) : dict :=
  [title_item (Some (TaskCreate_title task));
   description_item (TaskCreate_description task)].

(** [class TaskUpdate]: three optional fields, each [None] by default. *)
Record TaskUpdate := mkTaskUpdate {
  TaskUpdate_title : option (option string);
  TaskUpdate_description : option (option string);
  TaskUpdate_completed : option (option bool)
}.

Definition TaskUpdate_validate (b : Body) : exn + TaskUpdate :=
  inr (mkTaskUpdate (optional_set (body_title b))
                    (optional_set (body_description b))
                    (optional_set (body_completed b))).

Definition dump_set {A} (key : option A -> item) (f : option (option A)) : dict :=
  match f with
  | Some v => [key v]
  | None => []
  end.

(** [task_update.model_dump(exclude_unset=True)], also spelled
    [task.dict(exclude_unset=True)] *)
Definition TaskUpdate_model_dump_exclude_unset (u : TaskUpdate) : dict :=
  dump_set title_item (TaskUpdate_title u)
  ++ dump_set description_item (TaskUpdate_description u)
  ++ dump_set completed_item (TaskUpdate_completed u).

Definition TaskUpdate_setitem (u : TaskUpdate) (it : item) : TaskUpdate :=
  match it with
  | title_item v =>
      mkTaskUpdate (Some v) (TaskUpdate_description u) (TaskUpdate_completed u)
  | description_item v =>
      mkTaskUpdate (TaskUpdate_title u) (Some v) (TaskUpdate_completed u)
  | completed_item v =>
      mkTaskUpdate (TaskUpdate_title u) (TaskUpdate_description u) (Some v)
  | created_at_item _ | updated_at_item _ => u
  end.

(** [TaskUpdate] called with the keyword arguments [kwargs] *)
Definition TaskUpdate_init (kwargs : dict) : TaskUpdate :=
  fold_left TaskUpdate_setitem kwargs (mkTaskUpdate None None None).

(** [class TaskResponse]: six required fields, none of them optional. *)
Record TaskResponse := mkTaskResponse {
  TaskResponse_id : Z;
  TaskResponse_title : string;
  TaskResponse_description : string;
  TaskResponse_completed : bool;
  TaskResponse_created_at : datetime;
  TaskResponse_updated_at : datetime
}.

(** Reading a [TaskResponse] off an ORM object: an attribute that is
    [None] is not a value of a required field. *)
Definition TaskResponse_validate (t : models.Task) : option TaskResponse :=
  match models.id t, models.title t, models.description t,
        models.completed t, models.created_at t, models.updated_at t with
  | Some i, Some ti, Some de, Some co, Some cr, Some up =>
      Some (mkTaskResponse i ti de co cr up)
  | _, _, _, _, _, _ => None
  end.

Record TaskListResponse := mkTaskListResponse {
  count : Z;
  tasks : list TaskResponse
}.

End schemas.

(** ** app/crud.py *)

Module crud.

Definition create_task (task : schemas.TaskCreate) : M ref :=
  db_task <- Task (schemas.TaskCreate_model_dump task) ;;
  now <- utcnow ;;
  setattr db_task (created_at_item (Some now)) ;;
  now <- utcnow ;;
  setattr db_task (updated_at_item (Some now)) ;;
  add db_task ;;
  commit ;;
  refresh db_task ;;
  ret db_task.

Definition get_task (task_id : Z) : M (option ref) :=
  execute_first (filter_id select_Task task_id).

Definition get_tasks (skip limit_ : Z) : M (list ref) :=
  execute_all (limit (offset select_Task skip) limit_).

Definition update_task (task_id : Z) (task_update : schemas.TaskUpdate)
  : M (option ref) :=
  db_task <- get_task task_id ;;
  match db_task with
  | Some r =>
      let update_data := schemas.TaskUpdate_model_dump_exclude_unset task_update in
      for_each update_data (fun it => setattr r it) ;;
      now <- utcnow ;;
      setattr r (updated_at_item (Some now)) ;;
      commit ;;
      refresh r
  | None => ret tt
  end ;;
  ret db_task.

Definition delete_task (task_id : Z) : M bool :=
  db_task <- get_task task_id ;;
  match db_task with
  | Some r =>
      delete r ;;
      commit ;;
      ret true
  | None => ret false
  end.

Definition reset_task_id_sequence : M unit :=
  ALTER_SEQUENCE_tasks_id_seq_RESTART_WITH_1 ;;
  commit.

End crud.

(** ** app/routers/tasks.py *)

Module tasks.

Definition not_found {A} : M A :=
  raise (HTTPException 404 "Task not found"%string).

Definition create_task (task : schemas.TaskCreate) : M ref :=
  crud.create_task task.

(** The returned dictionary [{"tasks": tasks, "count": len(tasks)}]. *)
Definition list_tasks (skip limit_ : Z) : M (list ref * Z) :=
  tasks <- crud.get_tasks skip limit_ ;;
  ret (tasks, Z.of_nat (List.length tasks)).

Definition reset_tasks : M unit :=
  DELETE_FROM_tasks ;;
  crud.reset_task_id_sequence ;;
  ret tt.

Definition read_task (task_id : Z) : M ref :=
  task <- crud.get_task task_id ;;
  match task with
  | None => not_found
  | Some r => ret r
  end.

Definition update_task (task_id : Z) (task : schemas.TaskUpdate) : M ref :=
  updated_task <- crud.update_task task_id task ;;
  match updated_task with
  | None => not_found
  | Some r => ret r
  end.

Definition patch_task (task_id : Z) (task : schemas.TaskUpdate) : M (option ref) :=
  existing_task <- crud.get_task task_id ;;
  match existing_task with
  | None => not_found
  | Some _ =>
      let update_data := schemas.TaskUpdate_model_dump_exclude_unset task in
      updated_task <- crud.update_task task_id (schemas.TaskUpdate_init update_data) ;;
      ret updated_task
  end.

Definition delete_task (task_id : Z) : M unit :=
  deleted_ <- crud.delete_task task_id ;;
  if negb deleted_ then not_found else ret tt.

End tasks.

(** ** app/main.py: the application *)

Module main.

Inductive Request :=
| POST_tasks (body : schemas.Body)
| GET_tasks (skip limit_ : option Z)
| DELETE_tasks_reset
| GET_task (task_id : Z)
| PUT_task (task_id : Z) (body : schemas.Body)
| PATCH_task (task_id : Z) (body : schemas.Body)
| DELETE_task (task_id : Z)
| GET_health.

Inductive content :=
| task_json (t : schemas.TaskResponse)
| list_json (l : schemas.TaskListResponse)
| detail_json (detail : string)
| status_json (status : string)
| validation_errors
| internal_server_error
| no_content.

Record Response := mkResponse {
  status_code : Z;
  body : content
}.

(** A request body is validated against the parameter's schema before
    the endpoint runs. *)
Definition validated {A} (v : exn + A) : M A :=
  match v with
  | inr a => ret a
  | inl e => raise e
  end.

(** [response_model=schemas.TaskResponse] *)
Definition as_TaskResponse (r : ref) : M schemas.TaskResponse :=
  o <- deref r ;;
  match schemas.TaskResponse_validate (attrs o) with
  | Some t => ret t
  | None => raise ResponseValidationError
  end.

Definition task_response (r : ref) : M content :=
  t <- as_TaskResponse r ;;
  ret (task_json t).

(** The same response model on the value [patch_task] returns, which is
    whatever the gateway returned. *)
Definition optional_task_response (r : option ref) : M content :=
  match r with
  | Some r' => task_response r'
  | None => raise ResponseValidationError
  end.

(** [response_model=schemas.TaskListResponse] *)
Definition list_response (d : list ref * Z) : M content :=
  ts <- map_M as_TaskResponse (fst d) ;;
  ret (list_json (schemas.mkTaskListResponse (snd d) ts)).

Definition no_response (_ : unit) : M content := ret no_content.

(** The framework's exception handlers. *)
Definition on_exception (e : exn) : Response :=
  match e with
  | HTTPException code detail => mkResponse code (detail_json detail)
  | RequestValidationError => mkResponse 422 validation_errors
  | _ => mkResponse 500 internal_server_error
  end.

(** One request: [get_db] opens a session on the committed database, the
    endpoint runs, its result is turned into the response, and the
    session is closed, which drops whatever was not committed. *)
Definition serve {A} (success : Z) (respond : A -> M content) (endpoint : M A)
           (w : World) : Response * World :=
  match (a <- endpoint ;; respond a) (mkSession w (database w) []) with
  | (inr c, s) => (mkResponse success c, world s)
  | (inl e, s) => (on_exception e, world s)
  end.

Definition default (d : Z) (q : option Z) : Z :=
  match q with
  | Some v => v
  | None => d
  end.

Definition health_check : M string := ret "healthy"%string.

Definition app (req : Request) : World -> Response * World :=
  match req with
  | POST_tasks b =>
      serve 201 task_response
        (task <- validated (schemas.TaskCreate_validate b) ;;
         tasks.create_task task)
  | GET_tasks skip limit_ =>
      serve 200 list_response
        (tasks.list_tasks (default 0 skip) (default 100 limit_))
  | DELETE_tasks_reset =>
      serve 204 no_response tasks.reset_tasks
  | GET_task task_id =>
      serve 200 task_response (tasks.read_task task_id)
  | PUT_task task_id b =>
      serve 200 task_response
        (task <- validated (schemas.TaskUpdate_validate b) ;;
         tasks.update_task task_id task)
  | PATCH_task task_id b =>
      serve 200 optional_task_response
        (task <- validated (schemas.TaskUpdate_validate b) ;;
         tasks.patch_task task_id task)
  | DELETE_task task_id =>
      serve 204 no_response (tasks.delete_task task_id)
  | GET_health =>
      serve 200 (fun s => ret (status_json s)) health_check
  end.

End main.

(** ** Stores, as the table's declaration keeps them *)

(** The row, if any, whose id is [task_id]. *)
Definition lookup (task_id : Z) (d : Database) : option models.Task :=
  find (models.has_id task_id) (rows d).

(** The primary key: every row has an id and no two rows share one. *)
Fixpoint primary_key (l : list models.Task) : bool :=
  match l with
  | [] => true
  | row :: l' =>
      match models.id row with
      | Some i => negb (existsb (models.has_id i) l')
      | None => false
      end && primary_key l'
  end.

(** The sequence is ahead of every id it handed out. *)
Definition below_seq (n : Z) (row : models.Task) : bool :=
  match models.id row with
  | Some i => i <? n
  | None => false
  end.

Definition consistent (d : Database) : bool :=
  forallb (fun row => models.not_null row && models.in_length row) (rows d)
  && primary_key (rows d)
  && forallb (below_seq (tasks_id_seq d)) (rows d).





(** ** What the requests do, in terms of the store *)

Import schemas main.

(** The row a create stores: the next value of the sequence, the validated
    title and description, the column default for [completed], and the two
    readings of the clock. *)
Definition created_row (w : World) (task : TaskCreate) : models.Task :=
  models.mkTask (Some (tasks_id_seq (database w)))
                (Some (TaskCreate_title task))
                (TaskCreate_description task)
                (Some false)
                (Some (clock w (ticks w)))
                (Some (clock w (S (ticks w)))).

(** How a stored row is rendered by [response_model=TaskResponse]. *)
Definition rendered (success : Z) (row : models.Task) : Response :=
  match TaskResponse_validate row with
  | Some t => mkResponse success (task_json t)
  | None => mkResponse 500 internal_server_error
  end.

(** A row as a query loads it. *)
Definition loaded (row : models.Task) : object := mkObject row persistent false.

(** [response_model=TaskListResponse] on the rows a query returned. *)
Fixpoint validate_all (l : list models.Task) : option (list TaskResponse) :=
  match l with
  | [] => Some []
  | row :: l' =>
      match TaskResponse_validate row, validate_all l' with
      | Some t, Some ts => Some (t :: ts)
      | _, _ => None
      end
  end.

(** The page a list request selects. *)
Definition page (skip limit_ : Z) (l : list models.Task) : list models.Task :=
  firstn (Z.to_nat limit_) (skipn (Z.to_nat skip) l).

(** The attributes an update leaves on the object: the supplied fields,
    then the clock's reading. *)
Definition updated_row (u : TaskUpdate) (now : datetime) (row : models.Task)
  : models.Task :=
  models.setitem
    (fold_left models.setitem (TaskUpdate_model_dump_exclude_unset u) row)
    (updated_at_item (Some now)).

(** The table after the row with id [task_id] is rewritten to [row']. *)
Definition rewritten (task_id : Z) (row' : models.Task) (d : Database) : Database :=
  mkDatabase (map (fun r => if models.has_id task_id r then row' else r) (rows d))
             (tasks_id_seq d).

(** The value a field of the payload leaves in the column: an absent key
    keeps the old value, null erases it, a value replaces it. *)
Definition written {A} (f : field A) (old : option A) : option A :=
  match f with
  | absent => old
  | null => None
  | value a => Some a
  end.

Definition update_of (b : Body) : TaskUpdate :=
  mkTaskUpdate (optional_set (body_title b))
               (optional_set (body_description b))
               (optional_set (body_completed b)).




(** The changes a request can make to the world. *)
Inductive change (w : World) : World -> Prop :=
| change_nothing n :
    change w (mkWorld (database w) (clock w) (ticks w + n))
| change_sequence :
    change w (mkWorld (mkDatabase (rows (database w)) (tasks_id_seq (database w) + 1))
                      (clock w) (S (S (ticks w))))
| change_insert task :
    models.in_length (created_row w task) = true ->
    change w (mkWorld (mkDatabase (rows (database w) ++ [created_row w task])
                                  (tasks_id_seq (database w) + 1))
                      (clock w) (S (S (ticks w))))
| change_rewrite task_id u row :
    lookup task_id (database w) = Some row ->
    models.not_null (updated_row u (clock w (ticks w)) row)
    && models.in_length (updated_row u (clock w (ticks w)) row) = true ->
    change w (mkWorld (rewritten task_id (updated_row u (clock w (ticks w)) row)
                                 (database w))
                      (clock w) (S (ticks w)))
| change_delete task_id :
    change w (mkWorld (mkDatabase
                         (filter (fun r => negb (models.has_id task_id r))
                                 (rows (database w)))
                         (tasks_id_seq (database w)))
                      (clock w) (ticks w))
| change_reset :
    change w (mkWorld (mkDatabase [] 1) (clock w) (ticks w)).


(** ** Sample worlds *)

(** A clock that advances by one microsecond per reading. *)
Definition steady : nat -> datetime := fun n => 1700000000000000 + Z.of_nat n.

(** The service right after start-up. *)
Definition fresh_world : World := mkWorld empty_database steady 0.

Definition milk : models.Task :=
  models.mkTask (Some 1) (Some "Buy milk"%string) (Some "2 litres"%string)
                (Some false) (Some 1600000000000000) (Some 1600000000000000).

Definition bread : models.Task :=
  models.mkTask (Some 2) (Some "Buy bread"%string) None
                (Some false) (Some 1600000000000005) (Some 1600000000000006).

(** A store holding two tasks. *)
Definition pantry : World := mkWorld (mkDatabase [milk; bread] 3) steady 0.


(** ** Running the session layer

    The monadic operations unfold when they are applied to a session. *)

Arguments bind {A B} c k s /.
Arguments ret {A} a s /.
Arguments raise {A} e s /.
Arguments get_txn s /.
Arguments put_txn d s /.
Arguments get_database s /.
Arguments put_database d s /.
Arguments utcnow s /.
Arguments allocate o s /.
Arguments deref r s /.
Arguments assign r o s /.
Arguments Task kwargs s /.
Arguments setattr r it s /.
Arguments nextval s /.
Arguments check_constraints row s /.
Arguments INSERT t s /.
Arguments UPDATE t s /.
Arguments DELETE t s /.
Arguments DELETE_FROM_tasks s /.
Arguments ALTER_SEQUENCE_tasks_id_seq_RESTART_WITH_1 s /.
Arguments flush_object r s /.
Arguments flush s /.
Arguments add r s /.
Arguments delete r s /.
Arguments commit s /.
Arguments load row s /.
Arguments refresh r s /.
Arguments execute_all q s /.
Arguments execute_first q s /.
Arguments models.set_id v t /.
Arguments models.set_completed v t /.
Arguments models.setitem t it /.
Arguments set_rows l d /.
Arguments set_seq n d /.

Section Rows.

Lemma has_id_spec task_id row :
  models.has_id task_id row = true <-> models.id row = Some task_id.
Proof.
  unfold models.has_id. destruct (models.id row) as [i|].
  - rewrite Z.eqb_eq. split; congruence.
  - split; discriminate.
Qed.

Lemma has_id_refl task_id ti de co cr up :
  models.has_id task_id (models.mkTask (Some task_id) ti de co cr up) = true.
Proof. apply has_id_spec. reflexivity. Qed.

Lemma filter_none {A} (p : A -> bool) l :
  existsb p l = false -> filter p l = [].
Proof.
  induction l as [|a l IH]; simpl; [reflexivity|].
  destruct (p a); simpl; [discriminate|exact IH].
Qed.

Lemma find_none {A} (p : A -> bool) l :
  existsb p l = false -> find p l = None.
Proof.
  induction l as [|a l IH]; simpl; [reflexivity|].
  destruct (p a); simpl; [discriminate|exact IH].
Qed.

Lemma existsb_find {A} (p : A -> bool) l :
  existsb p l = match find p l with Some _ => true | None => false end.
Proof.
  induction l as [|a l IH]; simpl; [reflexivity|].
  destruct (p a); simpl; [reflexivity|exact IH].
Qed.

(** Under the primary key a filter on the id selects the one row that
    [find] returns. *)
Lemma filter_primary_key task_id l :
  primary_key l = true ->
  filter (models.has_id task_id) l =
  match find (models.has_id task_id) l with
  | Some row => [row]
  | None => []
  end.
Proof.
  induction l as [|a l IH]; simpl; [reflexivity|].
  intros H. apply andb_prop in H. destruct H as [Ha Hl].
  destruct (models.has_id task_id a) eqn:E.
  - apply has_id_spec in E. rewrite E in Ha.
    apply negb_true_iff in Ha. rewrite (filter_none _ _ Ha). reflexivity.
  - apply IH, Hl.
Qed.

Lemma find_has_id task_id l row :
  find (models.has_id task_id) l = Some row -> models.id row = Some task_id.
Proof.
  intros H. apply find_some in H. apply has_id_spec, H.
Qed.

End Rows.

(** ** What each request does *)

Section Create.

Variables (w : World) (b : Body) (task : TaskCreate).
Hypothesis Hvalid : TaskCreate_validate b = inr task.

Let row := created_row w task.
Let d := database w.

Lemma POST_tasks_inserts :
  existsb (models.has_id (tasks_id_seq d)) (rows d) = false ->
  models.in_length row = true ->
  app (POST_tasks b) w =
  (rendered 201 row,
   mkWorld (mkDatabase (rows d ++ [row]) (tasks_id_seq d + 1))
           (clock w) (S (S (ticks w)))).
Proof.
  intros Hfresh Hlen. subst row d.
  unfold app, serve, tasks.create_task, crud.create_task, validated.
  rewrite Hvalid. unfold created_row in *. cbn.
  rewrite Hfresh. cbn. rewrite Hlen. cbn.
  rewrite filter_app, (filter_none _ _ Hfresh). cbn.
  rewrite Z.eqb_refl. cbn.
  unfold task_response, as_TaskResponse, rendered. cbn.
  destruct (TaskCreate_description task); reflexivity.
Qed.

(** A create the table refuses: the value drawn from the sequence is
    spent, nothing else changes. *)
Lemma POST_tasks_refused :
  existsb (models.has_id (tasks_id_seq d)) (rows d)
  || negb (models.in_length row) = true ->
  app (POST_tasks b) w =
  (mkResponse 500 internal_server_error,
   mkWorld (mkDatabase (rows d) (tasks_id_seq d + 1))
           (clock w) (S (S (ticks w)))).
Proof.
  intros H. subst row d.
  unfold app, serve, tasks.create_task, crud.create_task, validated.
  rewrite Hvalid. unfold created_row in *. cbn.
  destruct (existsb _ _) eqn:Hfresh; cbn; [reflexivity|].
  cbn in H. rewrite H. reflexivity.
Qed.

End Create.

Lemma POST_tasks_invalid w b e :
  TaskCreate_validate b = inl e ->
  app (POST_tasks b) w = (mkResponse 422 validation_errors, w).
Proof.
  intros H. unfold app, serve, validated. rewrite H. cbn.
  unfold TaskCreate_validate in H.
  destruct (body_title b); inversion H; reflexivity.
Qed.

Section Queries.

Lemma map_M_load l w t objs :
  map_M load l (mkSession w t objs) =
  (inr (seq (List.length objs) (List.length l)),
   mkSession w t (objs ++ map loaded l)).
Proof.
  revert objs. induction l as [|row l IH]; intros objs; cbn.
  - rewrite app_nil_r. reflexivity.
  - rewrite IH. rewrite length_app, <- app_assoc. cbn.
    rewrite Nat.add_1_r. reflexivity.
Qed.

Lemma hd_error_filter {A} (p : A -> bool) l :
  hd_error (filter p l) = find p l.
Proof.
  induction l as [|a l IH]; cbn; [reflexivity|].
  destruct (p a); cbn; [reflexivity|exact IH].
Qed.

(** The gateway's [get_task], run in a session that holds no object
    yet: the first row with that id, loaded as object number 0. *)
Lemma get_task_run w t task_id :
  crud.get_task task_id (mkSession w t []) =
  (inr (match find (models.has_id task_id) (rows t) with
        | Some _ => Some 0%nat
        | None => None
        end),
   mkSession w t (map loaded (filter (models.has_id task_id) (rows t)))).
Proof.
  unfold crud.get_task. cbn. rewrite map_M_load. cbn.
  rewrite <- hd_error_filter.
  destruct (filter _ _); reflexivity.
Qed.

Lemma GET_task_lookup w task_id :
  app (GET_task task_id) w =
  (match lookup task_id (database w) with
   | Some row => rendered 200 row
   | None => mkResponse 404 (detail_json "Task not found")
   end, w).
Proof.
  unfold app, serve, tasks.read_task, lookup. cbn -[crud.get_task].
  rewrite get_task_run. rewrite <- hd_error_filter.
  destruct (filter _ _) as [|row l] eqn:E; cbn; [reflexivity|].
  unfold task_response, as_TaskResponse, rendered. cbn.
  destruct (TaskResponse_validate row); reflexivity.
Qed.

End Queries.

Section Listing.

Lemma map_M_as_TaskResponse l w t pre :
  map_M as_TaskResponse (seq (List.length pre) (List.length l))
        (mkSession w t (pre ++ map loaded l)) =
  (match validate_all l with
   | Some ts => inr ts
   | None => inl ResponseValidationError
   end, mkSession w t (pre ++ map loaded l)).
Proof.
  revert pre. induction l as [|row l IH]; intros pre; [reflexivity|].
  cbn [List.length seq map map_M validate_all].
  unfold as_TaskResponse at 1. cbn.
  rewrite nth_error_app2, Nat.sub_diag by apply Nat.le_refl. cbn.
  destruct (TaskResponse_validate row) as [t'|]; cbn; [|reflexivity].
  specialize (IH (pre ++ [loaded row])).
  rewrite length_app, Nat.add_1_r, <- app_assoc in IH. cbn in IH.
  rewrite IH. destruct (validate_all l); reflexivity.
Qed.

Lemma get_tasks_run w t skip limit_ :
  0 <= skip -> 0 <= limit_ ->
  crud.get_tasks skip limit_ (mkSession w t []) =
  (inr (seq 0 (List.length (page skip limit_ (rows t)))),
   mkSession w t (map loaded (page skip limit_ (rows t)))).
Proof.
  intros Hs Hl. unfold crud.get_tasks. cbn.
  apply Z.ltb_ge in Hs, Hl. rewrite Hs, Hl.
  rewrite map_M_load. reflexivity.
Qed.

Lemma list_tasks_page w skip limit_ :
  0 <= skip -> 0 <= limit_ ->
  let l := page skip limit_ (rows (database w)) in
  app (GET_tasks (Some skip) (Some limit_)) w =
  (match validate_all l with
   | Some ts =>
       mkResponse 200
         (list_json (mkTaskListResponse (Z.of_nat (List.length l)) ts))
   | None => mkResponse 500 internal_server_error
   end, w).
Proof.
  intros Hs Hl l. unfold app, serve, tasks.list_tasks, list_response.
  cbn -[crud.get_tasks]. rewrite get_tasks_run by assumption.
  cbn -[map_M]. fold l. rewrite length_seq.
  pose proof (map_M_as_TaskResponse l w (database w) []) as E.
  cbn [List.length Datatypes.app] in E. rewrite E.
  destruct (validate_all l); reflexivity.
Qed.

Lemma list_tasks_negative w skip limit_ :
  skip < 0 \/ limit_ < 0 ->
  app (GET_tasks (Some skip) (Some limit_)) w =
  (mkResponse 500 internal_server_error, w).
Proof.
  intros H. unfold app, serve, tasks.list_tasks, crud.get_tasks. cbn.
  destruct (skip <? 0) eqn:Hs; [reflexivity|].
  destruct (limit_ <? 0) eqn:Hl; [reflexivity|].
  apply Z.ltb_ge in Hs, Hl. lia.
Qed.

End Listing.

Section Removal.

Lemma DELETE_tasks_reset_run w :
  app DELETE_tasks_reset w =
  (mkResponse 204 no_content,
   mkWorld (mkDatabase [] 1) (clock w) (ticks w)).
Proof. reflexivity. Qed.

Lemma DELETE_task_missing w task_id :
  lookup task_id (database w) = None ->
  app (DELETE_task task_id) w =
  (mkResponse 404 (detail_json "Task not found"), w).
Proof.
  unfold lookup, app, serve, tasks.delete_task, crud.delete_task. intros H.
  cbn -[crud.get_task]. rewrite get_task_run, H.
  rewrite <- hd_error_filter in H.
  destruct (filter _ _); [reflexivity|discriminate].
Qed.

Lemma DELETE_task_found w task_id row :
  primary_key (rows (database w)) = true ->
  lookup task_id (database w) = Some row ->
  app (DELETE_task task_id) w =
  (mkResponse 204 no_content,
   mkWorld (mkDatabase
              (filter (fun r => negb (models.has_id task_id r)) (rows (database w)))
              (tasks_id_seq (database w)))
           (clock w) (ticks w)).
Proof.
  unfold lookup, app, serve, tasks.delete_task, crud.delete_task. intros Hpk H.
  cbn -[crud.get_task]. rewrite get_task_run, H.
  rewrite (filter_primary_key _ _ Hpk), H. cbn.
  rewrite (find_has_id _ _ _ H). reflexivity.
Qed.

End Removal.

Section Update.

Lemma setitem_id t it : models.id (models.setitem t it) = models.id t.
Proof. destruct it; reflexivity. Qed.

Lemma fold_setitem_id l t : models.id (fold_left models.setitem l t) = models.id t.
Proof.
  revert t. induction l as [|it l IH]; intros t; cbn; [reflexivity|].
  rewrite IH. apply setitem_id.
Qed.

Lemma updated_row_id u now row : models.id (updated_row u now row) = models.id row.
Proof. unfold updated_row. rewrite setitem_id. apply fold_setitem_id. Qed.

Lemma replace_nth_app {A} (pre : list A) a b post :
  replace_nth (List.length pre) b (pre ++ a :: post) = pre ++ b :: post.
Proof. induction pre as [|x pre IH]; cbn; [reflexivity|]. rewrite IH. reflexivity. Qed.

Lemma nth_error_middle {A} (pre : list A) a post :
  nth_error (pre ++ a :: post) (List.length pre) = Some a.
Proof. induction pre as [|x pre IH]; cbn; [reflexivity|exact IH]. Qed.

Lemma setattr_run w t pre o post it :
  setattr (List.length pre) it (mkSession w t (pre ++ o :: post)) =
  (inr tt,
   mkSession w t (pre ++ mkObject (models.setitem (attrs o) it) (state o) true :: post)).
Proof.
  cbn -[models.setitem]. rewrite nth_error_middle. cbn -[models.setitem].
  rewrite replace_nth_app. reflexivity.
Qed.

(** The loop [for key, value in update_data.items(): setattr(...)]. *)
Lemma for_each_setattr l w t pre o post :
  for_each l (fun it => setattr (List.length pre) it)
           (mkSession w t (pre ++ o :: post)) =
  (inr tt,
   mkSession w t
     (pre ++ mkObject (fold_left models.setitem l (attrs o)) (state o)
                      (match l with [] => modified o | _ => true end) :: post)).
Proof.
  revert o. induction l as [|it l IH]; intros o.
  - destruct o; reflexivity.
  - cbn [for_each]. unfold bind at 1. rewrite setattr_run, IH. cbn [attrs state fold_left].
    destruct l; reflexivity.
Qed.

Lemma TaskUpdate_init_dump u :
  TaskUpdate_init (TaskUpdate_model_dump_exclude_unset u) = u.
Proof. destruct u as [[?|] [?|] [?|]]; reflexivity. Qed.

Lemma filter_map_rewrite {A} (p : A -> bool) r' l :
  p r' = true ->
  filter p (map (fun x => if p x then r' else x) l) = map (fun _ => r') (filter p l).
Proof.
  intros Hr. induction l as [|a l IH]; cbn; [reflexivity|].
  destruct (p a) eqn:E; cbn.
  - rewrite Hr, IH. reflexivity.
  - rewrite E. exact IH.
Qed.

Variables (w : World) (t : Database) (task_id : Z) (u : TaskUpdate) (row : models.Task).
Hypothesis Hrow : filter (models.has_id task_id) (rows t) = [row].

Let row' := updated_row u (clock w (ticks w)) row.

Lemma stored_id : models.id row = Some task_id.
Proof.
  apply has_id_spec.
  assert (In row (filter (models.has_id task_id) (rows t))) as H
      by (rewrite Hrow; left; reflexivity).
  apply filter_In in H. apply H.
Qed.

Lemma filter_rewritten :
  filter (models.has_id task_id) (rows (rewritten task_id row' t)) = [row'].
Proof.
  assert (models.has_id task_id row' = true) as Hid.
  { apply has_id_spec. unfold row'. rewrite updated_row_id. apply stored_id. }
  unfold rewritten. cbn [rows].
  rewrite (filter_map_rewrite _ row' (rows t) Hid), Hrow. reflexivity.
Qed.

(** The gateway's [update_task] when the row exists, run at the start of
    a request ([again = false], the full update) or after the endpoint
    has read the row once already ([again = true], the partial update). *)
Lemma update_task_accepted (again : bool) :
  let pre := if again then [loaded row] else [] in
  models.not_null row' && models.in_length row' = true ->
  crud.update_task task_id u (mkSession w t pre) =
  (inr (Some (List.length pre)),
   mkSession (mkWorld (rewritten task_id row' t) (clock w) (S (ticks w)))
             (rewritten task_id row' t)
             (pre ++ [loaded row'])).
Proof.
  intros pre Hok. apply andb_prop in Hok. destruct Hok as [Hnn Hlen].
  pose proof filter_rewritten as Hf. unfold rewritten in Hf. cbn [rows] in Hf.
  pose proof (updated_row_id u (clock w (ticks w)) row) as Hid.
  rewrite stored_id in Hid. fold row' in Hid.
  unfold crud.update_task, crud.get_task. subst pre.
  unfold row' in *. clear row'.
  destruct again; cbn -[for_each flush_object refresh models.setitem].
  - rewrite map_M_load, Hrow. cbn -[for_each flush_object refresh models.setitem].
    rewrite (for_each_setattr _ w t [loaded row] (loaded row) []).
    cbn -[flush_object refresh models.setitem].
    fold (updated_row u (clock w (ticks w)) row).
    remember (updated_row u (clock w (ticks w)) row) as r.
    cbn -[refresh]. rewrite Hid. cbn -[refresh]. rewrite Hnn, Hlen.
    cbn. rewrite Hid, Hf. reflexivity.
  - rewrite map_M_load, Hrow. cbn -[for_each flush_object refresh models.setitem].
    rewrite (for_each_setattr _ w t [] (loaded row) []).
    cbn -[flush_object refresh models.setitem].
    fold (updated_row u (clock w (ticks w)) row).
    remember (updated_row u (clock w (ticks w)) row) as r.
    cbn -[refresh]. rewrite Hid. cbn -[refresh]. rewrite Hnn, Hlen.
    cbn. rewrite Hid, Hf. reflexivity.
Qed.

(** The same call when the table refuses the rewritten row: nothing is
    committed; the clock was read once. *)
Lemma update_task_refused (again : bool) :
  let pre := if again then [loaded row] else [] in
  models.not_null row' && models.in_length row' = false ->
  exists s',
    crud.update_task task_id u (mkSession w t pre) =
    (inl (if models.not_null row' then DataError else IntegrityError), s') /\
    world s' = mkWorld (database w) (clock w) (S (ticks w)).
Proof.
  intros pre Hno.
  pose proof (updated_row_id u (clock w (ticks w)) row) as Hid.
  rewrite stored_id in Hid. fold row' in Hid.
  unfold crud.update_task, crud.get_task. subst pre.
  unfold row' in *. clear row'.
  destruct again; cbn -[for_each flush_object refresh models.setitem].
  - rewrite map_M_load, Hrow. cbn -[for_each flush_object refresh models.setitem].
    rewrite (for_each_setattr _ w t [loaded row] (loaded row) []).
    cbn -[flush_object refresh models.setitem].
    fold (updated_row u (clock w (ticks w)) row).
    remember (updated_row u (clock w (ticks w)) row) as r.
    cbn -[refresh]. rewrite Hid. cbn -[refresh].
    destruct (models.not_null r); cbn in Hno |- *.
    + rewrite Hno. cbn. eexists. split; reflexivity.
    + eexists. split; reflexivity.
  - rewrite map_M_load, Hrow. cbn -[for_each flush_object refresh models.setitem].
    rewrite (for_each_setattr _ w t [] (loaded row) []).
    cbn -[flush_object refresh models.setitem].
    fold (updated_row u (clock w (ticks w)) row).
    remember (updated_row u (clock w (ticks w)) row) as r.
    cbn -[refresh]. rewrite Hid. cbn -[refresh].
    destruct (models.not_null r); cbn in Hno |- *.
    + rewrite Hno. cbn. eexists. split; reflexivity.
    + eexists. split; reflexivity.
Qed.

End Update.

Section UpdateRequests.

Variables (w : World) (task_id : Z) (b : Body).

Let u := mkTaskUpdate (optional_set (body_title b))
                      (optional_set (body_description b))
                      (optional_set (body_completed b)).

Lemma PUT_task_missing :
  lookup task_id (database w) = None ->
  app (PUT_task task_id b) w =
  (mkResponse 404 (detail_json "Task not found"), w).
Proof.
  unfold lookup, app, serve, tasks.update_task, crud.update_task. intros H.
  cbn -[crud.get_task]. rewrite get_task_run, H.
  rewrite <- hd_error_filter in H.
  destruct (filter _ _); [reflexivity|discriminate].
Qed.

Lemma PATCH_task_missing :
  lookup task_id (database w) = None ->
  app (PATCH_task task_id b) w =
  (mkResponse 404 (detail_json "Task not found"), w).
Proof.
  unfold lookup, app, serve, tasks.patch_task. intros H.
  cbn -[crud.get_task]. rewrite get_task_run, H.
  rewrite <- hd_error_filter in H.
  destruct (filter _ _); [reflexivity|discriminate].
Qed.

Variable row : models.Task.
Hypothesis Hpk : primary_key (rows (database w)) = true.
Hypothesis Hrow : lookup task_id (database w) = Some row.

Let row' := updated_row u (clock w (ticks w)) row.

Lemma lookup_filter :
  filter (models.has_id task_id) (rows (database w)) = [row].
Proof. rewrite (filter_primary_key _ _ Hpk). unfold lookup in Hrow. rewrite Hrow. reflexivity. Qed.

Lemma PUT_task_accepted :
  models.not_null row' && models.in_length row' = true ->
  app (PUT_task task_id b) w =
  (rendered 200 row',
   mkWorld (rewritten task_id row' (database w)) (clock w) (S (ticks w))).
Proof.
  intros Hok.
  pose proof (update_task_accepted w (database w) task_id u row lookup_filter false Hok) as E.
  unfold row' in *. clear Hok. revert E.
  generalize (updated_row u (clock w (ticks w)) row) as r. intros r E.
  unfold app, serve, tasks.update_task, validated, TaskUpdate_validate.
  cbn -[crud.update_task]. fold u. cbn -[crud.update_task] in E. rewrite E.
  cbn. unfold task_response, as_TaskResponse, rendered. cbn.
  destruct (TaskResponse_validate r); reflexivity.
Qed.

Lemma PATCH_task_accepted :
  models.not_null row' && models.in_length row' = true ->
  app (PATCH_task task_id b) w =
  (rendered 200 row',
   mkWorld (rewritten task_id row' (database w)) (clock w) (S (ticks w))).
Proof.
  intros Hok.
  pose proof (update_task_accepted w (database w) task_id u row lookup_filter true Hok) as E.
  unfold row' in *. clear Hok. revert E.
  generalize (updated_row u (clock w (ticks w)) row) as r. intros r E.
  unfold app, serve, tasks.patch_task, validated, TaskUpdate_validate.
  cbn -[crud.update_task crud.get_task]. fold u.
  rewrite get_task_run. unfold lookup in Hrow. rewrite Hrow, lookup_filter.
  cbn -[crud.update_task]. rewrite TaskUpdate_init_dump.
  cbn -[crud.update_task] in E. rewrite E.
  cbn. unfold task_response, as_TaskResponse, rendered. cbn.
  destruct (TaskResponse_validate r); reflexivity.
Qed.

Lemma PUT_task_refused :
  models.not_null row' && models.in_length row' = false ->
  app (PUT_task task_id b) w =
  (mkResponse 500 internal_server_error,
   mkWorld (database w) (clock w) (S (ticks w))).
Proof.
  intros Hno.
  destruct (update_task_refused w (database w) task_id u row lookup_filter false Hno)
    as (s' & E & Hw).
  unfold row' in *. clear Hno. revert E.
  generalize (updated_row u (clock w (ticks w)) row) as r. intros r E.
  unfold app, serve, tasks.update_task, validated, TaskUpdate_validate.
  cbn -[crud.update_task]. fold u. cbn -[crud.update_task] in E. rewrite E, Hw.
  destruct (models.not_null r); reflexivity.
Qed.

Lemma PATCH_task_refused :
  models.not_null row' && models.in_length row' = false ->
  app (PATCH_task task_id b) w =
  (mkResponse 500 internal_server_error,
   mkWorld (database w) (clock w) (S (ticks w))).
Proof.
  intros Hno.
  destruct (update_task_refused w (database w) task_id u row lookup_filter true Hno)
    as (s' & E & Hw).
  unfold row' in *. clear Hno. revert E.
  generalize (updated_row u (clock w (ticks w)) row) as r. intros r E.
  unfold app, serve, tasks.patch_task, validated, TaskUpdate_validate.
  cbn -[crud.update_task crud.get_task]. fold u.
  rewrite get_task_run. unfold lookup in Hrow. rewrite Hrow, lookup_filter.
  cbn -[crud.update_task]. rewrite TaskUpdate_init_dump.
  cbn -[crud.update_task] in E. rewrite E, Hw.
  destruct (models.not_null r); reflexivity.
Qed.

End UpdateRequests.

(** ** Consistent stores *)

Section Consistency.

Lemma consistent_parts d :
  consistent d = true <->
  forallb (fun row => models.not_null row && models.in_length row) (rows d) = true /\
  primary_key (rows d) = true /\
  forallb (below_seq (tasks_id_seq d)) (rows d) = true.
Proof.
  unfold consistent. rewrite !andb_true_iff. tauto.
Qed.

Lemma consistent_primary_key d :
  consistent d = true -> primary_key (rows d) = true.
Proof. intros H. apply consistent_parts in H. apply H. Qed.

Lemma below_seq_fresh n l :
  forallb (below_seq n) l = true -> existsb (models.has_id n) l = false.
Proof.
  induction l as [|a l IH]; cbn; [reflexivity|].
  intros H. apply andb_prop in H. destruct H as [Ha Hl].
  rewrite (IH Hl), orb_false_r.
  unfold below_seq in Ha. unfold models.has_id.
  destruct (models.id a) as [i|]; [|reflexivity].
  apply Z.ltb_lt in Ha. apply Z.eqb_neq. lia.
Qed.

Lemma consistent_fresh d :
  consistent d = true ->
  existsb (models.has_id (tasks_id_seq d)) (rows d) = false.
Proof. intros H. apply consistent_parts in H. apply below_seq_fresh, H. Qed.

Lemma lookup_In task_id d row :
  lookup task_id d = Some row ->
  In row (rows d) /\ models.id row = Some task_id.
Proof.
  unfold lookup. intros H. apply find_some in H. destruct H as [Hin Hid].
  split; [exact Hin|]. apply has_id_spec, Hid.
Qed.

Lemma consistent_row d row :
  consistent d = true -> In row (rows d) ->
  models.not_null row && models.in_length row = true.
Proof.
  intros H Hin. apply consistent_parts in H. destruct H as (H & _ & _).
  rewrite forallb_forall in H. apply H, Hin.
Qed.

Lemma consistent_empty n : consistent (mkDatabase [] n) = true.
Proof. reflexivity. Qed.













End Consistency.

Section Changes.



Lemma GET_tasks_world w skip limit_ :
  snd (app (GET_tasks skip limit_) w) = w.
Proof.
  assert (forall s l, snd (app (GET_tasks (Some s) (Some l)) w) = w) as H.
  { intros s l. destruct (Z.lt_ge_cases s 0) as [Hs|Hs].
    - rewrite list_tasks_negative by (left; exact Hs). reflexivity.
    - destruct (Z.lt_ge_cases l 0) as [Hl|Hl].
      + rewrite list_tasks_negative by (right; exact Hl). reflexivity.
      + rewrite list_tasks_page by assumption. reflexivity. }
  destruct skip as [s|], limit_ as [l|].
  - apply H.
  - apply (H s 100).
  - apply (H 0 l).
  - apply (H 0 100).
Qed.

Lemma lookup_cases task_id d :
  lookup task_id d = None \/ exists row, lookup task_id d = Some row.
Proof. destruct (lookup task_id d) as [row|]; [right; exists row|left]; reflexivity. Qed.


End Changes.

Section Written.

Lemma updated_row_written b now row :
  updated_row (update_of b) now row =
  models.mkTask (models.id row)
                (written (body_title b) (models.title row))
                (written (body_description b) (models.description row))
                (written (body_completed b) (models.completed row))
                (models.created_at row)
                (Some now).
Proof.
  destruct b as [[| |ti] [| |de] [| |co]], row; reflexivity.
Qed.



End Written.

Section Timestamps.









End Timestamps.

Section Lookup.

Lemma find_app {A} (p : A -> bool) l l' :
  find p (l ++ l') = match find p l with Some a => Some a | None => find p l' end.
Proof.
  induction l as [|a l IH]; cbn; [reflexivity|]. destruct (p a); [reflexivity|exact IH].
Qed.

Lemma lookup_rewritten_same task_id row row' d :
  lookup task_id d = Some row ->
  models.id row' = Some task_id ->
  lookup task_id (rewritten task_id row' d) = Some row'.
Proof.
  unfold lookup, rewritten. cbn. intros H Hid.
  apply has_id_spec in Hid.
  induction (rows d) as [|a l IH]; cbn in *; [discriminate|].
  destruct (models.has_id task_id a) eqn:E.
  - rewrite Hid. reflexivity.
  - rewrite E. apply IH, H.
Qed.

Lemma lookup_rewritten_other j task_id row' d :
  j <> task_id ->
  models.id row' = Some task_id ->
  lookup j (rewritten task_id row' d) = lookup j d.
Proof.
  unfold lookup, rewritten. cbn. intros Hj Hid.
  assert (models.has_id j row' = false) as Hno.
  { unfold models.has_id. rewrite Hid. apply Z.eqb_neq. congruence. }
  induction (rows d) as [|a l IH]; cbn; [reflexivity|].
  destruct (models.has_id task_id a) eqn:E.
  - apply has_id_spec in E. rewrite Hno.
    assert (models.has_id j a = false) as Ha.
    { unfold models.has_id. rewrite E. apply Z.eqb_neq. congruence. }
    rewrite Ha. exact IH.
  - rewrite IH. reflexivity.
Qed.

End Lookup.

(** ** The properties *)

(** C1.  A create request that carries only a title is answered with 500,
    not with a 201 record, whatever the store and the title: the row is
    committed with a NULL description, and the response model, whose
    description is a required string, refuses it.  At start-up the row
    stored for the title "Buy milk" carries the two successive readings of
    the clock. *)
Theorem C1_title_only_create_is_answered_500 :
  (forall w title,
      fst (app (POST_tasks (mkBody (value title) absent absent)) w) =
      mkResponse 500 internal_server_error) /\
  rows (database (snd (app (POST_tasks (mkBody (value "Buy milk"%string) absent absent))
                           fresh_world))) =
  [models.mkTask (Some 1) (Some "Buy milk"%string) None (Some false)
                 (Some 1700000000000000) (Some 1700000000000001)].
Proof.
  split; [|reflexivity].
  intros w title.
  set (b := mkBody (value title) absent absent).
  assert (TaskCreate_validate b = inr (mkTaskCreate title None)) as Hv by reflexivity.
  destruct (existsb (models.has_id (tasks_id_seq (database w))) (rows (database w))
            || negb (models.in_length (created_row w (mkTaskCreate title None)))) eqn:E.
  - rewrite (POST_tasks_refused w b _ Hv E). reflexivity.
  - apply orb_false_elim in E. destruct E as [E1 E2]. apply negb_false_iff in E2.
    rewrite (POST_tasks_inserts w b _ Hv E1 E2). reflexivity.
Qed.

(** C2.  A partial update whose payload is only [{completed: true}], sent
    for a stored task, sets the task's completed flag to true and its
    updated_at to the clock's reading, and leaves its title, its
    description (and its id and created_at) as they were; every other task
    is untouched. *)
Theorem C2_patch_completed_only w task_id row :
  consistent (database w) = true ->
  lookup task_id (database w) = Some row ->
  let w' := snd (app (PATCH_task task_id (mkBody absent absent (value true))) w) in
  exists row',
    lookup task_id (database w') = Some row' /\
    models.completed row' = Some true /\
    models.updated_at row' = Some (clock w (ticks w)) /\
    models.title row' = models.title row /\
    models.description row' = models.description row /\
    models.id row' = models.id row /\
    models.created_at row' = models.created_at row /\
    (forall j, j <> task_id -> lookup j (database w') = lookup j (database w)).
Proof.
  intros Hc Hrow w'. subst w'.
  set (b := mkBody absent absent (value true)).
  pose proof (lookup_In _ _ _ Hrow) as [Hin Hid].
  pose proof (consistent_row _ _ Hc Hin) as Hok.
  pose proof (updated_row_written b (clock w (ticks w)) row) as Hw.
  assert (models.not_null (updated_row (update_of b) (clock w (ticks w)) row)
          && models.in_length (updated_row (update_of b) (clock w (ticks w)) row) = true)
    as Hok'.
  { rewrite Hw. destruct row; exact Hok. }
  rewrite (PATCH_task_accepted w task_id b row (consistent_primary_key _ Hc) Hrow Hok').
  cbn [snd database]. fold (update_of b). rewrite Hw.
  eexists. split.
  - apply (lookup_rewritten_same _ row); [exact Hrow|exact Hid].
  - cbn. repeat split. intros j Hj.
    apply lookup_rewritten_other; [exact Hj|exact Hid].
Qed.

Lemma C2_patch_completed_only_witness :
  exists row',
    lookup 1 (database (snd (app (PATCH_task 1 (mkBody absent absent (value true)))
                                 pantry))) = Some row' /\
    models.completed row' = Some true /\
    models.updated_at row' = Some (clock pantry (ticks pantry)) /\
    models.title row' = models.title milk /\
    models.description row' = models.description milk /\
    models.id row' = models.id milk /\
    models.created_at row' = models.created_at milk /\
    (forall j, j <> 1 ->
               lookup j (database (snd (app (PATCH_task 1 (mkBody absent absent (value true)))
                                            pantry))) = lookup j (database pantry)).
Proof.
  apply (C2_patch_completed_only pantry 1 milk); reflexivity.
Defined.





(** C5.  The creation schema has no completed field: a completed key in
    the payload is dropped, so two payloads that differ only there are
    served alike, and a create that supplies [completed: true] stores and
    returns [completed = false]. *)
Theorem C5_create_drops_completed :
  (forall w t d c c',
      app (POST_tasks (mkBody t d c)) w = app (POST_tasks (mkBody t d c')) w) /\
  let r := app (POST_tasks (mkBody (value "Write report"%string) (value "Q3"%string)
                                   (value true))) fresh_world in
  fst r = mkResponse 201
            (task_json (mkTaskResponse 1 "Write report" "Q3" false
                                       1700000000000000 1700000000000001)) /\
  map models.completed (rows (database (snd r))) = [Some false].
Proof.
  split; [reflexivity|]. split; reflexivity.
Qed.







(** C8.  Whenever a create is answered 201, the body is a task record, and
    a get with that record's id, sent next, is answered 200 with the same
    record, field for field, and changes nothing. *)
Theorem C8_create_then_get w b resp w' :
  app (POST_tasks b) w = (resp, w') ->
  status_code resp = 201 ->
  exists t,
    body resp = task_json t /\
    app (GET_task (TaskResponse_id t)) w' = (mkResponse 200 (task_json t), w').
Proof.
  intros Hrun Hcode.
  destruct (TaskCreate_validate b) as [e|task] eqn:Hv.
  { rewrite (POST_tasks_invalid _ _ _ Hv) in Hrun. injection Hrun as <- _.
    discriminate Hcode. }
  destruct (existsb (models.has_id (tasks_id_seq (database w))) (rows (database w))
            || negb (models.in_length (created_row w task))) eqn:E.
  { rewrite (POST_tasks_refused w b task Hv E) in Hrun. injection Hrun as <- _.
    discriminate Hcode. }
  apply orb_false_elim in E. destruct E as [Hfresh Hlen]. apply negb_false_iff in Hlen.
  rewrite (POST_tasks_inserts w b task Hv Hfresh Hlen) in Hrun.
  injection Hrun as <- <-. unfold rendered in *.
  destruct (TaskResponse_validate (created_row w task)) as [t|] eqn:Ht;
    [|discriminate Hcode].
  exists t. split; [reflexivity|].
  assert (TaskResponse_id t = tasks_id_seq (database w)) as Hid.
  { unfold TaskResponse_validate, created_row in Ht. cbn in Ht.
    destruct (TaskCreate_description task); [|discriminate Ht].
    injection Ht as <-. reflexivity. }
  rewrite GET_task_lookup, Hid. unfold lookup. cbn [database rows].
  rewrite find_app, (find_none _ _ Hfresh). cbn [find].
  unfold created_row at 1. rewrite has_id_refl.
  unfold rendered. rewrite Ht. reflexivity.
Qed.

Lemma C8_create_then_get_witness :
  let b := mkBody (value "Buy eggs"%string) (value "a dozen"%string) absent in
  exists t,
    body (fst (app (POST_tasks b) pantry)) = task_json t /\
    app (GET_task (TaskResponse_id t)) (snd (app (POST_tasks b) pantry)) =
      (mkResponse 200 (task_json t), snd (app (POST_tasks b) pantry)).
Proof.
  intros b.
  apply (C8_create_then_get pantry b (fst (app (POST_tasks b) pantry))
                            (snd (app (POST_tasks b) pantry))).
  - apply surjective_pairing.
  - reflexivity.
Defined.









(** ** Further properties of the gateway and the endpoints *)

Section Further.

Lemma lookup_deleted task_id j d :
  lookup j (mkDatabase (filter (fun r => negb (models.has_id task_id r)) (rows d))
                       (tasks_id_seq d)) =
  if j =? task_id then None else lookup j d.
Proof.
  unfold lookup. cbn [rows]. induction (rows d) as [|a l IH]; cbn.
  - destruct (j =? task_id); reflexivity.
  - destruct (models.has_id task_id a) eqn:E; cbn.
    + rewrite IH. destruct (j =? task_id) eqn:Ej; [reflexivity|].
      apply has_id_spec in E. unfold models.has_id. rewrite E.
      rewrite Z.eqb_sym, Ej. reflexivity.
    + destruct (models.has_id j a) eqn:Ea; [|exact IH].
      destruct (j =? task_id) eqn:Ej; [|reflexivity].
      apply Z.eqb_eq in Ej. subst j. congruence.
Qed.

Lemma filter_split_length {A} (p : A -> bool) l :
  (List.length (filter p l) + List.length (filter (fun x => negb (p x)) l))%nat =
  List.length l.
Proof.
  induction l as [|a l IH]; cbn; [reflexivity|].
  destruct (p a); cbn; lia.
Qed.

Lemma map_rewrite_same {B} (f : models.Task -> B) task_id row' l :
  (forall a, In a l -> models.has_id task_id a = true -> f row' = f a) ->
  map f (map (fun r => if models.has_id task_id r then row' else r) l) = map f l.
Proof.
  induction l as [|a l IH]; cbn; intros H; [reflexivity|].
  rewrite IH by (intros x Hx; apply H; right; exact Hx). f_equal.
  destruct (models.has_id task_id a) eqn:E; [|reflexivity].
  apply H; [left; reflexivity|exact E].
Qed.




Lemma validate_all_In l row :
  In row l -> TaskResponse_validate row = None -> validate_all l = None.
Proof.
  induction l as [|a l IH]; cbn; intros Hin Hrow; [contradiction|].
  destruct Hin as [->|Hin].
  - rewrite Hrow. reflexivity.
  - rewrite (IH Hin Hrow). destruct (TaskResponse_validate a); reflexivity.
Qed.

Lemma rendered_200 code row t :
  TaskResponse_validate row = Some t -> rendered code row = mkResponse code (task_json t).
Proof. intros H. unfold rendered. rewrite H. reflexivity. Qed.

Lemma rendered_status code row :
  status_code (rendered code row) = code \/ status_code (rendered code row) = 500.
Proof. unfold rendered. destruct (TaskResponse_validate row); [left|right]; reflexivity. Qed.

Lemma validate_id row t :
  TaskResponse_validate row = Some t -> models.id row = Some (TaskResponse_id t).
Proof.
  unfold TaskResponse_validate.
  destruct (models.id row), (models.title row), (models.description row),
    (models.completed row), (models.created_at row), (models.updated_at row);
    try discriminate.
  intros H. injection H as <-. reflexivity.
Qed.

(** The three outcomes of an update request on a consistent store. *)
Lemma update_cases w task_id b req :
  req = PUT_task task_id b \/ req = PATCH_task task_id b ->
  consistent (database w) = true ->
  (lookup task_id (database w) = None /\
   app req w = (mkResponse 404 (detail_json "Task not found"), w)) \/
  (exists row,
      lookup task_id (database w) = Some row /\
      models.not_null (updated_row (update_of b) (clock w (ticks w)) row)
      && models.in_length (updated_row (update_of b) (clock w (ticks w)) row) = false /\
      app req w = (mkResponse 500 internal_server_error,
                   mkWorld (database w) (clock w) (S (ticks w)))) \/
  (exists row,
      lookup task_id (database w) = Some row /\
      models.not_null (updated_row (update_of b) (clock w (ticks w)) row)
      && models.in_length (updated_row (update_of b) (clock w (ticks w)) row) = true /\
      app req w =
      (rendered 200 (updated_row (update_of b) (clock w (ticks w)) row),
       mkWorld (rewritten task_id (updated_row (update_of b) (clock w (ticks w)) row)
                          (database w))
               (clock w) (S (ticks w)))).
Proof.
  intros Hreq Hc. pose proof (consistent_primary_key _ Hc) as Hpk.
  destruct (lookup_cases task_id (database w)) as [H|[row H]].
  - left. split; [exact H|].
    destruct Hreq as [-> | ->]; [apply PUT_task_missing|apply PATCH_task_missing]; exact H.
  - right.
    destruct (models.not_null (updated_row (update_of b) (clock w (ticks w)) row)
              && models.in_length (updated_row (update_of b) (clock w (ticks w)) row))
      eqn:Hok.
    + right. exists row. split; [exact H|]. split; [exact Hok|].
      destruct Hreq as [-> | ->].
      * apply (PUT_task_accepted w task_id b row Hpk H Hok).
      * apply (PATCH_task_accepted w task_id b row Hpk H Hok).
    + left. exists row. split; [exact H|]. split; [exact Hok|].
      destruct Hreq as [-> | ->].
      * apply (PUT_task_refused w task_id b row Hpk H Hok).
      * apply (PATCH_task_refused w task_id b row Hpk H Hok).
Qed.

(** The three outcomes of a create request on a consistent store. *)
Lemma create_cases w b :
  consistent (database w) = true ->
  (TaskCreate_validate b = inl RequestValidationError /\
   app (POST_tasks b) w = (mkResponse 422 validation_errors, w)) \/
  (exists task,
      TaskCreate_validate b = inr task /\
      models.in_length (created_row w task) = false /\
      app (POST_tasks b) w =
      (mkResponse 500 internal_server_error,
       mkWorld (mkDatabase (rows (database w)) (tasks_id_seq (database w) + 1))
               (clock w) (S (S (ticks w))))) \/
  (exists task,
      TaskCreate_validate b = inr task /\
      models.in_length (created_row w task) = true /\
      app (POST_tasks b) w =
      (rendered 201 (created_row w task),
       mkWorld (mkDatabase (rows (database w) ++ [created_row w task])
                           (tasks_id_seq (database w) + 1))
               (clock w) (S (S (ticks w))))).
Proof.
  intros Hc. destruct (TaskCreate_validate b) as [e|task] eqn:Hv.
  - left. assert (e = RequestValidationError) as ->.
    { unfold TaskCreate_validate in Hv. destruct (body_title b); congruence. }
    split; [reflexivity|]. apply (POST_tasks_invalid _ _ _ Hv).
  - right. destruct (models.in_length (created_row w task)) eqn:Hlen.
    + right. exists task. split; [reflexivity|]. split; [exact Hlen|].
      apply (POST_tasks_inserts w b task Hv (consistent_fresh _ Hc) Hlen).
    + left. exists task. split; [reflexivity|]. split; [exact Hlen|].
      apply (POST_tasks_refused w b task Hv). rewrite Hlen. apply orb_true_r.
Qed.

End Further.

(** X1.  Deleting a stored task answers 204, removes that task and no
    other (the table has one row fewer and every other id still finds its
    row); deleting the same id again, or reading it, answers 404 and
    changes nothing. *)
Theorem X1_delete_twice w task_id row :
  consistent (database w) = true ->
  lookup task_id (database w) = Some row ->
  let w1 := snd (app (DELETE_task task_id) w) in
  fst (app (DELETE_task task_id) w) = mkResponse 204 no_content /\
  lookup task_id (database w1) = None /\
  (forall j, j <> task_id -> lookup j (database w1) = lookup j (database w)) /\
  S (List.length (rows (database w1))) = List.length (rows (database w)) /\
  app (DELETE_task task_id) w1 = (mkResponse 404 (detail_json "Task not found"), w1) /\
  app (GET_task task_id) w1 = (mkResponse 404 (detail_json "Task not found"), w1).
Proof.
  intros Hc Hrow w1. subst w1.
  pose proof (consistent_primary_key _ Hc) as Hpk.
  rewrite (DELETE_task_found w task_id row Hpk Hrow). cbn [fst snd].
  set (w1 := mkWorld _ _ _).
  assert (lookup task_id (database w1) = None) as Hgone.
  { subst w1. cbn [database]. rewrite lookup_deleted, Z.eqb_refl. reflexivity. }
  split; [reflexivity|]. split; [exact Hgone|]. split; [|split; [|split]].
  - intros j Hj. subst w1. cbn [database]. rewrite lookup_deleted.
    apply Z.eqb_neq in Hj. rewrite Hj. reflexivity.
  - subst w1. cbn [database rows].
    pose proof (filter_split_length (models.has_id task_id) (rows (database w))) as H.
    rewrite (lookup_filter w task_id row Hpk Hrow) in H. cbn in H. lia.
  - apply DELETE_task_missing, Hgone.
  - rewrite GET_task_lookup, Hgone. reflexivity.
Qed.

Lemma X1_delete_twice_witness :
  let w1 := snd (app (DELETE_task 1) pantry) in
  fst (app (DELETE_task 1) pantry) = mkResponse 204 no_content /\
  rows (database w1) = [bread] /\
  app (DELETE_task 1) w1 = (mkResponse 404 (detail_json "Task not found"), w1).
Proof.
  pose proof (X1_delete_twice pantry 1 milk eq_refl eq_refl) as H. cbv zeta in H.
  destruct H as (H1 & _ & _ & _ & H5 & _).
  cbv zeta. split; [exact H1|]. split; [reflexivity|exact H5].
Defined.

(** X2.  The full update and the partial update are the same operation:
    on a consistent store, PUT and PATCH with the same id and the same
    payload give the same response and the same world. *)
Theorem X2_put_is_patch w task_id b :
  consistent (database w) = true ->
  app (PUT_task task_id b) w = app (PATCH_task task_id b) w.
Proof.
  intros Hc.
  destruct (update_cases w task_id b (PUT_task task_id b) (or_introl eq_refl) Hc)
    as [[Hno E]|[(row & Hrow & Hok & E)|(row & Hrow & Hok & E)]];
    destruct (update_cases w task_id b (PATCH_task task_id b) (or_intror eq_refl) Hc)
    as [[Hno' E']|[(row' & Hrow' & Hok' & E')|(row' & Hrow' & Hok' & E')]];
    rewrite E, E'; try reflexivity; try congruence.
  all: assert (row' = row) as -> by congruence; try reflexivity; congruence.
Qed.

Lemma X2_put_is_patch_witness :
  app (PUT_task 2 (mkBody (value "Buy rye bread"%string) absent (value true))) pantry =
  app (PATCH_task 2 (mkBody (value "Buy rye bread"%string) absent (value true))) pantry.
Proof.
  apply (X2_put_is_patch pantry 2). reflexivity.
Defined.



(** X4.  When a create on a consistent store is answered 201, exactly one
    row was appended and the rows that were there are untouched; the new
    task's id is the one in the response, it is greater than the id of
    every other stored task, and the sequence now stands one past it. *)
Theorem X4_created_id_is_new w b resp w' :
  consistent (database w) = true ->
  app (POST_tasks b) w = (resp, w') ->
  status_code resp = 201 ->
  exists t row,
    body resp = task_json t /\
    rows (database w') = rows (database w) ++ [row] /\
    models.id row = Some (TaskResponse_id t) /\
    (forall r i, In r (rows (database w)) -> models.id r = Some i ->
                 i < TaskResponse_id t) /\
    tasks_id_seq (database w') = TaskResponse_id t + 1.
Proof.
  intros Hc Hrun Hcode.
  destruct (create_cases w b Hc)
    as [[_ E]|[(task & _ & _ & E)|(task & Hv & Hlen & E)]];
    rewrite E in Hrun; injection Hrun as <- <-; try discriminate Hcode.
  unfold rendered in *.
  destruct (TaskResponse_validate (created_row w task)) as [t|] eqn:Ht;
    [|discriminate Hcode].
  pose proof (validate_id _ _ Ht) as Hid. cbn in Hid. injection Hid as Hid.
  exists t, (created_row w task). cbn [body database rows tasks_id_seq].
  split; [reflexivity|]. split; [reflexivity|]. split; [cbn; congruence|].
  split; [|congruence].
  intros r i Hin Hr. apply consistent_parts in Hc. destruct Hc as (_ & _ & Hb).
  rewrite forallb_forall in Hb. specialize (Hb r Hin). unfold below_seq in Hb.
  rewrite Hr in Hb. apply Z.ltb_lt in Hb. lia.
Qed.

Lemma X4_created_id_is_new_witness :
  let b := mkBody (value "Buy eggs"%string) (value "a dozen"%string) absent in
  exists t row,
    body (fst (app (POST_tasks b) pantry)) = task_json t /\
    rows (database (snd (app (POST_tasks b) pantry))) = rows (database pantry) ++ [row] /\
    models.id row = Some (TaskResponse_id t) /\
    (forall r i, In r (rows (database pantry)) -> models.id r = Some i ->
                 i < TaskResponse_id t) /\
    tasks_id_seq (database (snd (app (POST_tasks b) pantry))) = TaskResponse_id t + 1.
Proof.
  intros b.
  apply (X4_created_id_is_new pantry b (fst (app (POST_tasks b) pantry))
                              (snd (app (POST_tasks b) pantry))).
  - reflexivity.
  - apply surjective_pairing.
  - reflexivity.
Defined.











(** X10.  A stored task whose description or completed flag is NULL cannot
    be read back: a get by its id is answered 500, and so is every list
    request whose page contains it, whatever else is on the page; neither
    changes the store. *)
Theorem X10_row_with_null_is_unreadable w task_id row :
  lookup task_id (database w) = Some row ->
  models.description row = None \/ models.completed row = None ->
  app (GET_task task_id) w = (mkResponse 500 internal_server_error, w) /\
  (forall skip limit_,
      0 <= skip -> 0 <= limit_ ->
      In row (firstn (Z.to_nat limit_) (skipn (Z.to_nat skip) (rows (database w)))) ->
      app (GET_tasks (Some skip) (Some limit_)) w =
      (mkResponse 500 internal_server_error, w)).
Proof.
  intros Hrow Hnull.
  assert (TaskResponse_validate row = None) as Hv.
  { unfold TaskResponse_validate.
    destruct (models.id row), (models.title row), (models.description row),
      (models.completed row), (models.created_at row), (models.updated_at row);
      try reflexivity; destruct Hnull; discriminate. }
  split.
  - rewrite GET_task_lookup, Hrow. unfold rendered. rewrite Hv. reflexivity.
  - intros skip limit_ Hs Hl Hin.
    rewrite (list_tasks_page w skip limit_ Hs Hl). cbv zeta. unfold page.
    rewrite (validate_all_In _ row Hin Hv). reflexivity.
Qed.

Lemma X10_row_with_null_is_unreadable_witness :
  app (GET_task 2) pantry = (mkResponse 500 internal_server_error, pantry) /\
  app (GET_tasks (Some 0) (Some 100)) pantry =
    (mkResponse 500 internal_server_error, pantry) /\
  app (GET_task 1) pantry =
    (mkResponse 200 (task_json (mkTaskResponse 1 "Buy milk" "2 litres" false
                                               1600000000000000 1600000000000000)),
     pantry).
Proof.
  destruct (X10_row_with_null_is_unreadable pantry 2 bread eq_refl (or_introl eq_refl))
    as [H1 H2].
  split; [exact H1|]. split; [|reflexivity].
  apply H2; [lia|lia|]. right. left. reflexivity.
Defined.

(** X11.  Whenever an update, full or partial, of a consistent store is
    answered 200, the body is the record of the addressed task, and a get
    with the same id, sent next, is answered 200 with the same record and
    changes nothing. *)
Theorem X11_update_then_get w task_id b req resp w' :
  req = PUT_task task_id b \/ req = PATCH_task task_id b ->
  consistent (database w) = true ->
  app req w = (resp, w') ->
  status_code resp = 200 ->
  exists t,
    body resp = task_json t /\
    TaskResponse_id t = task_id /\
    app (GET_task task_id) w' = (mkResponse 200 (task_json t), w').
Proof.
  intros Hreq Hc Hrun Hcode.
  destruct (update_cases w task_id b req Hreq Hc)
    as [[Hnone E]|[(row & Hrow & Hok & E)|(row & Hrow & Hok & E)]];
    rewrite E in Hrun; injection Hrun as <- <-; try discriminate Hcode.
  set (row' := updated_row (update_of b) (clock w (ticks w)) row) in *.
  pose proof (lookup_In _ _ _ Hrow) as [_ Hid].
  assert (models.id row' = Some task_id) as Hid'
      by (subst row'; rewrite updated_row_id; exact Hid).
  unfold rendered in *.
  destruct (TaskResponse_validate row') as [t|] eqn:Ht; [|discriminate Hcode].
  exists t. split; [reflexivity|]. split.
  - pose proof (validate_id _ _ Ht) as H. congruence.
  - rewrite GET_task_lookup. cbn [database].
    rewrite (lookup_rewritten_same task_id row row' (database w) Hrow Hid').
    unfold rendered. rewrite Ht. reflexivity.
Qed.

Lemma X11_update_then_get_witness :
  let req := PUT_task 2 (mkBody absent (value "sliced"%string) absent) in
  exists t,
    body (fst (app req pantry)) = task_json t /\
    TaskResponse_id t = 2 /\
    app (GET_task 2) (snd (app req pantry)) =
      (mkResponse 200 (task_json t), snd (app req pantry)).
Proof.
  intros req.
  apply (X11_update_then_get pantry 2 (mkBody absent (value "sliced"%string) absent) req
                             (fst (app req pantry)) (snd (app req pantry))).
  - left. reflexivity.
  - reflexivity.
  - apply surjective_pairing.
  - reflexivity.
Defined.



(** X13.  A request that is answered 404 or 422 has changed nothing: the
    store, the sequence and the clock's position are what they were. *)
Theorem X13_client_errors_change_nothing w req :
  consistent (database w) = true ->
  status_code (fst (app req w)) = 404 \/ status_code (fst (app req w)) = 422 ->
  snd (app req w) = w.
Proof.
  intros Hc Hcode.
  destruct req as [b|skip limit_| |task_id|task_id b|task_id b|task_id|].
  - destruct (create_cases w b Hc)
      as [[_ E]|[(task & _ & _ & E)|(task & _ & _ & E)]]; rewrite E in *;
      cbn [fst snd status_code] in *; try reflexivity.
    + destruct Hcode; discriminate.
    + destruct (rendered_status 201 (created_row w task)) as [H|H];
        rewrite H in Hcode; destruct Hcode; discriminate.
  - apply GET_tasks_world.
  - rewrite DELETE_tasks_reset_run in Hcode. destruct Hcode; discriminate.
  - rewrite GET_task_lookup. reflexivity.
  - destruct (update_cases w task_id b _ (or_introl eq_refl) Hc)
      as [[_ E]|[(row & _ & _ & E)|(row & _ & _ & E)]]; rewrite E in *;
      cbn [fst snd status_code] in *; try reflexivity.
    + destruct Hcode; discriminate.
    + destruct (rendered_status 200 (updated_row (update_of b) (clock w (ticks w)) row))
        as [H|H]; rewrite H in Hcode; destruct Hcode; discriminate.
  - destruct (update_cases w task_id b _ (or_intror eq_refl) Hc)
      as [[_ E]|[(row & _ & _ & E)|(row & _ & _ & E)]]; rewrite E in *;
      cbn [fst snd status_code] in *; try reflexivity.
    + destruct Hcode; discriminate.
    + destruct (rendered_status 200 (updated_row (update_of b) (clock w (ticks w)) row))
        as [H|H]; rewrite H in Hcode; destruct Hcode; discriminate.
  - destruct (lookup_cases task_id (database w)) as [H|[row H]].
    + rewrite (DELETE_task_missing _ _ H). reflexivity.
    + rewrite (DELETE_task_found _ _ _ (consistent_primary_key _ Hc) H) in Hcode.
      destruct Hcode; discriminate.
  - reflexivity.
Qed.

Lemma X13_client_errors_change_nothing_witness :
  snd (app (POST_tasks (mkBody null (value "no title"%string) absent)) pantry) = pantry /\
  snd (app (PATCH_task 9 (mkBody (value "x"%string) absent absent)) pantry) = pantry.
Proof.
  split.
  - apply (X13_client_errors_change_nothing pantry); [reflexivity|right; reflexivity].
  - apply (X13_client_errors_change_nothing pantry); [reflexivity|left; reflexivity].
Defined.

Lemma optional_set_injective {A} (f g : field A) :
  optional_set f = optional_set g -> f = g.
Proof. destruct f, g; cbn; congruence. Qed.

Lemma In_map_filter {A B} (f : A -> B) q l x :
  In x (map f (filter q l)) -> In x (map f l).
Proof.
  rewrite !in_map_iff. intros (a & Ha & Hin). exists a. split; [exact Ha|].
  apply filter_In in Hin. apply Hin.
Qed.

(** X14.  The update schema keeps apart a key that is absent and a key
    that is null: rebuilding the schema object from its own dump of the
    supplied fields, as the partial update does, gives the same object
    back, and two payloads whose dumps are equal are the same payload. *)
Theorem X14_update_dump_round_trip :
  (forall u, TaskUpdate_init (TaskUpdate_model_dump_exclude_unset u) = u) /\
  (forall b b',
      TaskUpdate_model_dump_exclude_unset (update_of b) =
      TaskUpdate_model_dump_exclude_unset (update_of b') ->
      b = b').
Proof.
  split; [exact TaskUpdate_init_dump|].
  intros b b' H. apply (f_equal TaskUpdate_init) in H.
  rewrite !TaskUpdate_init_dump in H. unfold update_of in H.
  injection H as Ht Hd Hc.
  apply optional_set_injective in Ht, Hd, Hc.
  destruct b, b'. cbn in *. congruence.
Qed.

Lemma X14_update_dump_round_trip_witness :
  TaskUpdate_init [title_item None; completed_item (Some true)] =
    update_of (mkBody null absent (value true)) /\
  mkBody null absent (value true) = mkBody null absent (value (negb false)).
Proof.
  split.
  - apply (proj1 X14_update_dump_round_trip (update_of (mkBody null absent (value true)))).
  - apply (proj2 X14_update_dump_round_trip). reflexivity.
Defined.




(** X17.  No request brings an id back: on a consistent store, every id
    found in the table after a request was there before it or is the value
    the sequence stood at; and no request but the reset lowers the
    sequence. *)
Theorem X17_ids_are_not_reused w req :
  consistent (database w) = true ->
  let w' := snd (app req w) in
  (forall i, In (Some i) (map models.id (rows (database w'))) ->
             In (Some i) (map models.id (rows (database w)))
             \/ i = tasks_id_seq (database w)) /\
  (req <> DELETE_tasks_reset ->
   tasks_id_seq (database w) <= tasks_id_seq (database w')).
Proof.
  intros Hc w'. subst w'.
  destruct req as [b|skip limit_| |task_id|task_id b|task_id b|task_id|].
  - destruct (create_cases w b Hc)
      as [[_ E]|[(task & _ & _ & E)|(task & _ & _ & E)]]; rewrite E;
      cbn [snd database rows tasks_id_seq]; (split; [|intros _; lia]).
    + auto.
    + auto.
    + intros i Hi. rewrite map_app in Hi. apply in_app_or in Hi.
      destruct Hi as [Hi|[Hi|[]]]; [left; exact Hi|right].
      cbn in Hi. congruence.
  - rewrite GET_tasks_world. split; [auto|intros _; lia].
  - rewrite DELETE_tasks_reset_run. cbn [snd database rows]. split.
    + intros i [].
    + intros H. contradiction H. reflexivity.
  - rewrite GET_task_lookup. cbn [snd]. split; [auto|intros _; lia].
  - pose proof (X := update_cases w task_id b _ (or_introl eq_refl) Hc).
    destruct X as [[_ E]|[(row & _ & _ & E)|(row & Hrow & _ & E)]]; rewrite E;
      cbn [snd database rows tasks_id_seq]; (split; [|intros _; cbn; lia]); auto.
    intros i Hi. left. unfold rewritten in Hi. cbn [rows] in Hi.
    rewrite map_rewrite_same in Hi; [exact Hi|].
    intros a _ Ha. apply has_id_spec in Ha. rewrite updated_row_id.
    apply lookup_In in Hrow. destruct Hrow as [_ Hid]. congruence.
  - pose proof (X := update_cases w task_id b _ (or_intror eq_refl) Hc).
    destruct X as [[_ E]|[(row & _ & _ & E)|(row & Hrow & _ & E)]]; rewrite E;
      cbn [snd database rows tasks_id_seq]; (split; [|intros _; cbn; lia]); auto.
    intros i Hi. left. unfold rewritten in Hi. cbn [rows] in Hi.
    rewrite map_rewrite_same in Hi; [exact Hi|].
    intros a _ Ha. apply has_id_spec in Ha. rewrite updated_row_id.
    apply lookup_In in Hrow. destruct Hrow as [_ Hid]. congruence.
  - destruct (lookup_cases task_id (database w)) as [H|[row H]].
    + rewrite (DELETE_task_missing _ _ H). cbn [snd]. split; [auto|intros _; lia].
    + rewrite (DELETE_task_found _ _ _ (consistent_primary_key _ Hc) H).
      cbn [snd database rows tasks_id_seq]. split; [|intros _; lia].
      intros i Hi. left. apply (In_map_filter _ _ _ _ Hi).
  - change (snd (app GET_health w)) with w. split; [auto|intros _; lia].
Qed.

Lemma X17_ids_are_not_reused_witness :
  let w1 := snd (app (DELETE_task 2) pantry) in
  let w2 := snd (app (POST_tasks (mkBody (value "Buy eggs"%string) absent absent)) w1) in
  tasks_id_seq (database pantry) <= tasks_id_seq (database w1) /\
  map models.id (rows (database w2)) = [Some 1; Some 3].
Proof.
  intros w1 w2. split; [|reflexivity].
  apply (proj2 (X17_ids_are_not_reused pantry (DELETE_task 2) eq_refl)).
  discriminate.
Defined.
